(** * basis: application lifecycle, promise settlement, no-op executor,
      polymorphic_downcast

    A shallow embedding of
      - basis/application/application.cc   (module [Application]),
      - basis/promise/no_op_promise_executor.h (module [NoOpPromiseExecutor]),
      - the polymorphic_downcast helper    (module [Downcast]),
    together with a model of the promise node's settlement contract
    (module [Promise]).

    Conventions.  C++ methods that mutate the object, log, notify observers
    or may hit a failed DCHECK are functions in the monad [M]: they take the
    object, and give back the events they emitted together with either the
    returned value and the new object, or the check that stopped the
    process.  The build switches DCHECK_IS_ON() and DLOG_IS_ON() are a
    parameter ([Build]) of every such function.  Every call is taken to
    come from the sequence the object is bound to, so
    DCHECK_CALLED_ON_VALID_SEQUENCE passes; TRACE_EVENT leaves no mark. *)

From Stdlib Require Import List Bool Arith Lia.
Import ListNotations.

Set Implicit Arguments.

(** ** base/logging.h as the code uses it *)

Module Logging.

Inductive Severity := INFO | WARNING | FATAL.

(** The checks of the modelled files, one constructor per source line
    that can stop the process. *)
Inductive CheckFailure :=
| DCHECK_MessageLoopCurrent      (* application.cc:26  *)
| DCHECK_dtor_stopped            (* application.cc:31  *)
| DCHECK_transition              (* application.cc:80-107 *)
| NOTREACHED_previous_state      (* application.cc:110 *)
| DCHECK_not_total               (* application.cc:123, 276 *)
| NOTREACHED_HasFocus            (* application.cc:148 *)
| DCHECK_preloading              (* application.cc:162, 193 *)
| NOTREACHED_pause               (* application.cc:182 *)
| NOTREACHED_resume              (* application.cc:268 *)
| DCHECK_observer                (* application.cc:206, 219 *)
| DCHECK_dynamic_cast.           (* polymorphic_downcast *)

(** What a call ends with: it returns, or a fatal check stops it. *)
Inductive Outcome (A : Type) :=
| Returned (a : A)
| CheckFailed (why : CheckFailure).

Arguments CheckFailed {A} why.

Definition returned {A} (o : Outcome A) : bool :=
  match o with Returned _ => true | CheckFailed _ => false end.

(** The two build-time switches of base/logging.h the code consults:
    DCHECK_IS_ON(), and DLOG_IS_ON(severity), which also decides whether
    a DLOG(severity) statement writes anything. *)
Record Build := mkBuild {
  DCHECK_IS_ON : bool;
  DLOG_IS_ON : Severity -> bool
}.

(** A build with every debug check and debug log, and one with none. *)
Definition debug_build : Build := mkBuild true (fun _ => true).
Definition release_build : Build := mkBuild false (fun _ => false).

End Logging.
Export Logging.

(** ** base::WaitableEvent, as a flag

    Only the calling thread is modelled: a wait on an unsignalled event
    lasts until its timeout and reports [false]. *)

Module WaitableEvent.

Inductive ResetPolicy := MANUAL | AUTOMATIC.
Inductive InitialState := SIGNALED | NOT_SIGNALED.

Record t := mk { reset_policy : ResetPolicy; signaled : bool }.

Definition make (p : ResetPolicy) (i : InitialState) : t :=
  mk p (match i with SIGNALED => true | NOT_SIGNALED => false end).

Definition Signal (e : t) : t := mk (reset_policy e) true.

Definition Reset (e : t) : t := mk (reset_policy e) false.

(** base::TimeDelta, in microseconds. *)
Definition TimeDelta := nat.

Definition TimedWait (timeout : TimeDelta) (e : t) : bool * t :=
  if signaled e
  then (true, match reset_policy e with
              | MANUAL => e
              | AUTOMATIC => Reset e
              end)
  else (false, e).

End WaitableEvent.

(** ** basis/application/application.cc *)

Module Application.

(** enum ApplicationState (declared in application.hpp; the enumerators
    are those application.cc names). *)
Inductive ApplicationState :=
| kApplicationStatePreloading
| kApplicationStateStarted
| kApplicationStatePaused
| kApplicationStateSuspended
| kApplicationStateStopped
| kApplicationStateTotal.

Definition ApplicationState_eqb (a b : ApplicationState) : bool :=
  match a, b with
  | kApplicationStatePreloading, kApplicationStatePreloading
  | kApplicationStateStarted, kApplicationStateStarted
  | kApplicationStatePaused, kApplicationStatePaused
  | kApplicationStateSuspended, kApplicationStateSuspended
  | kApplicationStateStopped, kApplicationStateStopped
  | kApplicationStateTotal, kApplicationStateTotal => true
  | _, _ => false
  end.

Infix "==" := ApplicationState_eqb (at level 70, no associativity).

(** The five states an application can be in; [kApplicationStateTotal]
    is the enum's count sentinel. *)
Definition is_state (s : ApplicationState) : Prop :=
  s <> kApplicationStateTotal.

(** ApplicationObserver*: [None] is the null pointer. *)
Definition ObserverId := nat.
Definition ObserverPtr := option ObserverId.

(** The two callbacks of ApplicationObserver. *)
Inductive ObserverCall :=
| onStateChange (state : ApplicationState)
| onFocusChange (has_focus : bool).

Inductive LogMessage :=
| AttemptToReEnter (state : ApplicationState)           (* line 69 *)
| Transition (from to : ApplicationState).              (* line 120 *)

(** What a call leaves behind, in program order. *)
Inductive Event :=
| Log (sev : Severity) (msg : LogMessage)
| Notify (targets : list ObserverId) (call : ObserverCall).

Record Application := mkApplication {
  application_state_ : ApplicationState;
  observers_ : list ObserverId;
  app_loaded_ : WaitableEvent.t
}.

Definition M (A : Type) : Type :=
  Application -> list Event * Outcome (A * Application).

Definition ret {A} (a : A) : M A := fun app => ([], Returned (a, app)).

Definition bind {A B} (m : M A) (f : A -> M B) : M B :=
  fun app =>
    match m app with
    | (es, Returned (a, app')) =>
        let (es', r) := f a app' in (es ++ es', r)
    | (es, CheckFailed why) => (es, CheckFailed why)
    end.

Notation "x <- m ;; k" := (bind m (fun x => k))
  (at level 61, m at next level, right associativity).
Notation "m ;; k" := (bind m (fun _ => k))
  (at level 61, right associativity).

Definition get : M Application := fun app => ([], Returned (app, app)).
Definition put (app : Application) : M unit :=
  fun _ => ([], Returned (tt, app)).
Definition emit (e : Event) : M unit := fun app => ([e], Returned (tt, app)).
Definition fail {A} (why : CheckFailure) : M A :=
  fun _ => ([], CheckFailed why).

(** Projections of a run. *)
Definition events {A} (r : list Event * Outcome (A * Application)) :=
  fst r.
Definition outcome {A} (r : list Event * Outcome (A * Application)) :=
  snd r.
Definition final {A} (r : list Event * Outcome (A * Application))
  : option Application :=
  match snd r with
  | Returned (_, app) => Some app
  | CheckFailed _ => None
  end.
Definition result {A} (r : list Event * Outcome (A * Application))
  : option A :=
  match snd r with
  | Returned (a, _) => Some a
  | CheckFailed _ => None
  end.

Section Build.

Variable build : Build.

(** DCHECK(cond): fatal when checks are kept and [cond] is false. *)
Definition DCHECK (cond : bool) (why : CheckFailure) : M unit :=
  if DCHECK_IS_ON build && negb cond then fail why else ret tt.

(** NOTREACHED() is DCHECK(false). *)
Definition NOTREACHED (why : CheckFailure) : M unit := DCHECK false why.

(** DLOG(severity) << msg. *)
Definition DLOG (sev : Severity) (msg : LogMessage) : M unit :=
  if DLOG_IS_ON build sev then emit (Log sev msg) else ret tt.

(** The members as Application::Application() leaves them, lines 18-22.
    The initial value of application_state_ is a member initialiser of
    application.hpp and is a parameter here. *)
Definition ctor (initial : ApplicationState) : Application :=
  mkApplication initial []
    (WaitableEvent.make WaitableEvent.MANUAL WaitableEvent.NOT_SIGNALED).

(** Application::Application(), lines 18-27; [has_message_loop] is what
    base::MessageLoopCurrent::Get() reports. *)
Definition Application_new (initial : ApplicationState)
    (has_message_loop : bool)
  : list Event * Outcome (unit * Application) :=
  DCHECK has_message_loop DCHECK_MessageLoopCurrent (ctor initial).

(** Application::~Application(), lines 29-33. *)
Definition Application_delete : M unit :=
  app <- get ;;
  DCHECK (application_state_ app == kApplicationStateStopped)
         DCHECK_dtor_stopped.

(** observers_->Notify(FROM_HERE, method, arg): one notification,
    addressed to every observer registered at the time of the call. *)
Definition observers_Notify (call : ObserverCall) : M unit :=
  app <- get ;;
  emit (Notify (observers_ app) call).

(** Application::notifyStateChange, lines 35-44. *)
Definition notifyStateChange (state : ApplicationState) : M unit :=
  observers_Notify (onStateChange state).

(** Application::notifyFocusChange, lines 46-55. *)
Definition notifyFocusChange (has_focus : bool) : M unit :=
  observers_Notify (onFocusChange has_focus).

(** Application::HasFocus, lines 135-153. *)
Definition HasFocus (state : ApplicationState) : M bool :=
  match state with
  | kApplicationStateStarted => ret true
  | kApplicationStatePreloading
  | kApplicationStatePaused
  | kApplicationStateSuspended
  | kApplicationStateStopped => ret false
  | kApplicationStateTotal =>
      NOTREACHED NOTREACHED_HasFocus ;;
      ret false
  end.

(** The switch of lines 77-115: the condition each case DCHECKs. *)
Definition audit (previous state : ApplicationState) : M unit :=
  match previous with
  | kApplicationStatePaused =>
      DCHECK ((state == kApplicationStateSuspended)
              || (state == kApplicationStateStarted)) DCHECK_transition
  | kApplicationStatePreloading =>
      DCHECK ((state == kApplicationStateSuspended)
              || (state == kApplicationStateStarted)) DCHECK_transition
  | kApplicationStateStarted =>
      DCHECK (state == kApplicationStatePaused) DCHECK_transition
  | kApplicationStateStopped =>
      DCHECK ((state == kApplicationStatePreloading)
              || (state == kApplicationStateStarted)) DCHECK_transition
  | kApplicationStateSuspended =>
      DCHECK ((state == kApplicationStatePaused)
              || (state == kApplicationStateStopped)) DCHECK_transition
  | kApplicationStateTotal =>
      NOTREACHED NOTREACHED_previous_state
  end.

Definition set_application_state_ (state : ApplicationState) : M unit :=
  app <- get ;;
  put (mkApplication state (observers_ app) (app_loaded_ app)).

(** Application::setApplicationState, lines 57-133. *)
Definition setApplicationState (state : ApplicationState) : M unit :=
  app <- get ;;
  if application_state_ app == state then
    DLOG WARNING (AttemptToReEnter (application_state_ app))
  else
    (if DLOG_IS_ON build FATAL
     then audit (application_state_ app) state
     else ret tt) ;;
    old_has_focus <- HasFocus (application_state_ app) ;;
    DLOG INFO (Transition (application_state_ app) state) ;;
    set_application_state_ state ;;
    app' <- get ;;
    DCHECK (negb (application_state_ app' == kApplicationStateTotal))
           DCHECK_not_total ;;
    notifyStateChange (application_state_ app') ;;
    has_focus <- HasFocus (application_state_ app') ;;
    let focus_changed := negb (Bool.eqb has_focus old_has_focus) in
    if focus_changed then notifyFocusChange has_focus else ret tt.

(** Application::initialize, lines 155-163. *)
Definition initialize : M unit :=
  app <- get ;;
  DCHECK (application_state_ app == kApplicationStatePreloading)
         DCHECK_preloading.

(** Application::teardown, lines 165-173. *)
Definition teardown : M unit :=
  setApplicationState kApplicationStateStopped.

(** Application::pause, lines 175-183. *)
Definition pause : M unit := NOTREACHED NOTREACHED_pause.

(** Application::start, lines 185-196. *)
Definition start : M unit :=
  app <- get ;;
  DCHECK (application_state_ app == kApplicationStatePreloading)
         DCHECK_preloading ;;
  setApplicationState kApplicationStateStarted.

(** Application::addObserver, lines 198-209.  The observer list holds
    an observer once. *)
Definition addObserver (observer : ObserverPtr) : M unit :=
  DCHECK (match observer with Some _ => true | None => false end)
         DCHECK_observer ;;
  app <- get ;;
  match observer with
  | Some o =>
      if existsb (Nat.eqb o) (observers_ app) then ret tt
      else put (mkApplication (application_state_ app)
                              (observers_ app ++ [o]) (app_loaded_ app))
  | None => ret tt
  end.

(** Application::removeObserver, lines 211-222. *)
Definition removeObserver (observer : ObserverPtr) : M unit :=
  DCHECK (match observer with Some _ => true | None => false end)
         DCHECK_observer ;;
  app <- get ;;
  match observer with
  | Some o =>
      put (mkApplication (application_state_ app)
             (filter (fun o' => negb (Nat.eqb o o')) (observers_ app))
             (app_loaded_ app))
  | None => ret tt
  end.

(** Application::suspend, lines 224-240. *)
Definition suspend : M unit :=
  app <- get ;;
  (if negb (application_state_ app == kApplicationStatePaused)
   then setApplicationState kApplicationStatePaused
   else ret tt) ;;
  setApplicationState kApplicationStateSuspended ;;
  app' <- get ;;
  put (mkApplication (application_state_ app') (observers_ app')
                     (WaitableEvent.Reset (app_loaded_ app'))).

(** Application::waitForLoad, lines 242-249. *)
Definition waitForLoad (timeout : WaitableEvent.TimeDelta) : M bool :=
  app <- get ;;
  let (r, ev) := WaitableEvent.TimedWait timeout (app_loaded_ app) in
  put (mkApplication (application_state_ app) (observers_ app) ev) ;;
  ret r.

(** Application::signalOnLoad, lines 251-259. *)
Definition signalOnLoad : M unit :=
  app <- get ;;
  put (mkApplication (application_state_ app) (observers_ app)
                     (WaitableEvent.Signal (app_loaded_ app))).

(** Application::resume, lines 261-269. *)
Definition resume : M unit := NOTREACHED NOTREACHED_resume.

(** Application::getApplicationState, lines 271-278. *)
Definition getApplicationState : M ApplicationState :=
  app <- get ;;
  DCHECK (negb (application_state_ app == kApplicationStateTotal))
         DCHECK_not_total ;;
  ret (application_state_ app).

(** A caller's use of the public interface, one constructor per
    method. *)
Inductive Call :=
| CallInitialize
| CallTeardown
| CallPause
| CallStart
| CallAddObserver (observer : ObserverPtr)
| CallRemoveObserver (observer : ObserverPtr)
| CallSuspend
| CallWaitForLoad (timeout : WaitableEvent.TimeDelta)
| CallSignalOnLoad
| CallResume
| CallGetApplicationState
| CallSetApplicationState (state : ApplicationState).

Definition call (c : Call) : M unit :=
  match c with
  | CallInitialize => initialize
  | CallTeardown => teardown
  | CallPause => pause
  | CallStart => start
  | CallAddObserver o => addObserver o
  | CallRemoveObserver o => removeObserver o
  | CallSuspend => suspend
  | CallWaitForLoad t => waitForLoad t ;; ret tt
  | CallSignalOnLoad => signalOnLoad
  | CallResume => resume
  | CallGetApplicationState => getApplicationState ;; ret tt
  | CallSetApplicationState s => setApplicationState s
  end.

Fixpoint calls (cs : list Call) : M unit :=
  match cs with
  | [] => ret tt
  | c :: cs' => call c ;; calls cs'
  end.

End Build.

End Application.

(** ** Reading a run of the application *)

Module Observed.
Import Application.

(** The state a run ends in, when it returns. *)
Definition final_state {A} (r : list Event * Outcome (A * Application))
  : option ApplicationState :=
  option_map application_state_ (final r).

Definition is_notification (e : Event) : bool :=
  match e with Notify _ _ => true | Log _ _ => false end.

Definition is_state_notification (e : Event) : bool :=
  match e with Notify _ (onStateChange _) => true | _ => false end.

Definition is_focus_notification (e : Event) : bool :=
  match e with Notify _ (onFocusChange _) => true | _ => false end.

(** The notifications of a run, without its log lines. *)
Definition notifications (es : list Event) : list Event :=
  filter is_notification es.

(** Observer [o] is told [c] somewhere in [es]. *)
Definition notified (o : ObserverId) (c : ObserverCall) (es : list Event)
  : Prop :=
  exists targets, In (Notify targets c) es /\ In o targets.

(** The transitions the switch of setApplicationState lets through. *)
Inductive audited : ApplicationState -> ApplicationState -> Prop :=
| audited_paused_suspended :
    audited kApplicationStatePaused kApplicationStateSuspended
| audited_paused_started :
    audited kApplicationStatePaused kApplicationStateStarted
| audited_preloading_suspended :
    audited kApplicationStatePreloading kApplicationStateSuspended
| audited_preloading_started :
    audited kApplicationStatePreloading kApplicationStateStarted
| audited_started_paused :
    audited kApplicationStateStarted kApplicationStatePaused
| audited_stopped_preloading :
    audited kApplicationStateStopped kApplicationStatePreloading
| audited_stopped_started :
    audited kApplicationStateStopped kApplicationStateStarted
| audited_suspended_paused :
    audited kApplicationStateSuspended kApplicationStatePaused
| audited_suspended_stopped :
    audited kApplicationStateSuspended kApplicationStateStopped.

(** The allowed set as section 4.4 of the specification words it:
    Preloading->Started; Started->Paused; Paused->{Suspended,Started};
    Suspended->{Paused,Stopped}; any state->Stopped. *)
Inductive spec_allowed : ApplicationState -> ApplicationState -> Prop :=
| spec_preloading_started :
    spec_allowed kApplicationStatePreloading kApplicationStateStarted
| spec_started_paused :
    spec_allowed kApplicationStateStarted kApplicationStatePaused
| spec_paused_suspended :
    spec_allowed kApplicationStatePaused kApplicationStateSuspended
| spec_paused_started :
    spec_allowed kApplicationStatePaused kApplicationStateStarted
| spec_suspended_paused :
    spec_allowed kApplicationStateSuspended kApplicationStatePaused
| spec_suspended_stopped :
    spec_allowed kApplicationStateSuspended kApplicationStateStopped
| spec_any_stopped s :
    spec_allowed s kApplicationStateStopped.

(** The audit of lines 75-116 runs, and its DCHECKs can fire. *)
Definition audit_enabled (build : Build) : bool :=
  DLOG_IS_ON build FATAL && DCHECK_IS_ON build.

(** signalOnLoad occurs in the calls with no suspend after it. *)
Definition signalled_since_reset (cs : list Call) : Prop :=
  exists before after,
    cs = before ++ CallSignalOnLoad :: after /\ ~ In CallSuspend after.

(** The same, computed from the left with the flag's starting value. *)
Fixpoint loaded_after (cs : list Call) (flag : bool) : bool :=
  match cs with
  | [] => flag
  | CallSignalOnLoad :: cs' => loaded_after cs' true
  | CallSuspend :: cs' => loaded_after cs' false
  | _ :: cs' => loaded_after cs' flag
  end.

End Observed.

(** ** The promise node's settlement contract *)

Module Promise.

(** Modelled from the spec: basis/promise/abstract_promise.h, which holds
    the promise node and its settlement, is not among the sources.  The
    definitions follow sections 3, 4.1, 6 and 7 of the specification. *)
Inductive SettlementState := Pending | Resolved | Rejected | Cancelled.

Inductive RejectPolicy := MustCatchRejection | CanIgnoreRejection.

Inductive PrerequisitePolicy := None_ | AnyOne | AllPrerequisites.

Inductive Failure := AlreadySettled | CapabilityViolation.

Section Payload.

(** Payloads of a resolution and of a rejection. *)
Variables V E : Type.

Inductive Settlement :=
| Value (v : V)
| Error (e : E).

Record Executor := mkExecutor {
  prerequisite_policy : PrerequisitePolicy;
  can_resolve : bool;
  can_reject : bool
}.

Record PromiseNode := mkNode {
  id : nat;
  state : SettlementState;
  value : option Settlement;
  prerequisites : list nat;
  dependents : list nat;
  executor : Executor;
  reject_policy : RejectPolicy
}.

Definition with_settlement (n : PromiseNode) (s : SettlementState)
    (v : option Settlement) : PromiseNode :=
  mkNode (id n) s v (prerequisites n) (dependents n) (executor n)
         (reject_policy n).

(** The executor declared the kind of value being settled with. *)
Definition declared (x : Settlement) (n : PromiseNode) : bool :=
  match x with
  | Value _ => can_resolve (executor n)
  | Error _ => can_reject (executor n)
  end.

(** settle(value_or_error): Pending -> Resolved or Rejected, once; a
    settled node answers AlreadySettled, whatever is offered. *)
Definition settle (x : Settlement) (n : PromiseNode)
  : (Failure + unit) * PromiseNode :=
  match state n with
  | Pending =>
      if declared x n
      then (inr tt,
            with_settlement n
              (match x with Value _ => Resolved | Error _ => Rejected end)
              (Some x))
      else (inl CapabilityViolation, n)
  | _ => (inl AlreadySettled, n)
  end.

(** cancel(): Pending -> Cancelled, once. *)
Definition cancel (n : PromiseNode) : (Failure + unit) * PromiseNode :=
  match state n with
  | Pending => (inr tt, with_settlement n Cancelled None)
  | _ => (inl AlreadySettled, n)
  end.

(** The settlement API of section 6. *)
Definition resolve (v : V) := settle (Value v).
Definition reject (e : E) := settle (Error e).

Inductive Attempt :=
| TryResolve (v : V)
| TryReject (e : E)
| TryCancel.

Definition attempt (a : Attempt) (n : PromiseNode)
  : (Failure + unit) * PromiseNode :=
  match a with
  | TryResolve v => resolve v n
  | TryReject e => reject e n
  | TryCancel => cancel n
  end.

(** The node after a sequence of attempts, each on the node the
    previous one left. *)
Fixpoint after (attempts : list Attempt) (n : PromiseNode) : PromiseNode :=
  match attempts with
  | [] => n
  | a :: rest => after rest (snd (attempt a n))
  end.

End Payload.

End Promise.

(** ** basis/promise/no_op_promise_executor.h *)

Module PromiseExecutor.

(** Modelled from the spec: the enum PromiseExecutor::PrerequisitePolicy
    is declared in abstract_promise.h, which is not among the sources;
    the header names kNever, the specification names the three policies
    AllPrerequisites, AnyOne and None (never executed automatically). *)
Inductive PrerequisitePolicy := kAll | kAny | kNever.

End PromiseExecutor.

Module NoOpPromiseExecutor.

(** The two members exist in DCHECK builds (lines 40-43). *)
Record NoOpPromiseExecutor := mk {
  can_resolve_ : bool;
  can_reject_ : bool
}.

(** Lines 20-21. *)
Definition kPrerequisitePolicy : PromiseExecutor.PrerequisitePolicy :=
  PromiseExecutor.kNever.

(** Modelled from the spec: the bodies of the constructor,
    GetPrerequisitePolicy and Execute are in no_op_promise_executor.cc,
    which is not among the sources.  The specification gives the no-op
    variant the policy None, pure and constant; the header calls it
    "an Executor that doesn't do anything". *)
Definition new (can_resolve can_reject : bool) : NoOpPromiseExecutor :=
  mk can_resolve can_reject.

Definition GetPrerequisitePolicy (e : NoOpPromiseExecutor)
  : PromiseExecutor.PrerequisitePolicy :=
  PromiseExecutor.kNever.

Definition Execute (e : NoOpPromiseExecutor) : NoOpPromiseExecutor := e.

(** The executor after [n] calls of Execute. *)
Fixpoint executed (n : nat) (e : NoOpPromiseExecutor) : NoOpPromiseExecutor :=
  match n with
  | O => e
  | S n' => executed n' (Execute e)
  end.

End NoOpPromiseExecutor.

(** ** polymorphic_downcast *)

Module Downcast.

(** What the template asks of [Base] and [Derived]: the two casts, and
    the comparison [derived == base] of the DCHECK (the derived pointer
    converted to the base type, then compared). *)
Class Casts (Base Derived : Type) := {
  static_cast : Base -> Derived;
  dynamic_cast : Base -> Derived;
  ptr_eq : Derived -> Base -> bool
}.

(** The language rule relating the casts: where the checked cast gives
    the pointer back, the unchecked cast gives the same pointer. *)
Class CastsAgree {Base Derived : Type} (casts : Casts Base Derived) := {
  static_is_dynamic :
    forall base : Base,
      ptr_eq (dynamic_cast base) base = true ->
      static_cast base = dynamic_cast base
}.

(** template <typename Derived, typename Base>
    Derived polymorphic_downcast(Base base), lines 21-27. *)
Definition polymorphic_downcast {Base Derived} `{Casts Base Derived}
    (build : Build) (base : Base) : Outcome Derived :=
  if DCHECK_IS_ON build && negb (ptr_eq (dynamic_cast base) base)
  then CheckFailed DCHECK_dynamic_cast
  else Returned (static_cast base).

(** The classes of the header's example: Fruit, and Banana derived from
    it; Apple stands for any other fruit. *)
Module Fruits.

Inductive Class := Fruit | Banana | Apple.

(** A pointer is null or the address of an object, whose most derived
    class the object records. *)
Record Object := mkObject { address : nat; dynamic_type : Class }.
Definition FruitPtr := option Object.
Definition BananaPtr := option Object.

Definition is_banana (c : Class) : bool :=
  match c with Banana => true | _ => false end.

Definition same_address (d : BananaPtr) (b : FruitPtr) : bool :=
  match d, b with
  | None, None => true
  | Some x, Some y => Nat.eqb (address x) (address y)
  | _, _ => false
  end.

#[export] Instance fruit_banana : Casts FruitPtr BananaPtr := {
  static_cast := fun p => p;
  dynamic_cast := fun p =>
    match p with
    | Some o => if is_banana (dynamic_type o) then Some o else None
    | None => None
    end;
  ptr_eq := same_address
}.

Definition a_banana : FruitPtr := Some (mkObject 64 Banana).
Definition an_apple : FruitPtr := Some (mkObject 96 Apple).

End Fruits.

End Downcast.

(** ** Reading the notifications of a sequence of calls *)

Module Traces.
Import Application.

(** Application::HasFocus as a value: true for Started alone. *)
Definition focus (s : ApplicationState) : bool :=
  s == kApplicationStateStarted.

(** The states, and the focus values, the observers are told, in order. *)
Definition state_values (es : list Event) : list ApplicationState :=
  flat_map (fun e => match e with
                     | Notify _ (onStateChange s) => [s]
                     | _ => []
                     end) es.

Definition focus_values (es : list Event) : list bool :=
  flat_map (fun e => match e with
                     | Notify _ (onFocusChange b) => [b]
                     | _ => []
                     end) es.

(** Every element of [l] differs from the one before it, [prev] being
    before the first. *)
Fixpoint changes {A} (eqb : A -> A -> bool) (prev : A) (l : list A) : bool :=
  match l with
  | [] => true
  | x :: rest => negb (eqb x prev) && changes eqb x rest
  end.

(** [l] is a path of [R] steps from [prev]. *)
Inductive chain {A} (R : A -> A -> Prop) : A -> list A -> Prop :=
| chain_nil prev : chain R prev []
| chain_cons prev x rest :
    R prev x -> chain R x rest -> chain R prev (x :: rest).

(** Every notification in [es] is addressed to the list [obs]. *)
Definition addressed_to (obs : list ObserverId) (es : list Event) : Prop :=
  forall targets c, In (Notify targets c) es -> targets = obs.

(** The methods that never go through setApplicationState. *)
Definition quiet (c : Call) : bool :=
  match c with
  | CallStart | CallTeardown | CallSuspend | CallSetApplicationState _ => false
  | _ => true
  end.

(** The methods that edit the observer list. *)
Definition registers (c : Call) : bool :=
  match c with
  | CallAddObserver _ | CallRemoveObserver _ => true
  | _ => false
  end.

End Traces.

(** * Properties *)

(** ** The lifecycle state machine *)

Section Lifecycle.

Import Application Observed.

Lemma ApplicationState_eqb_eq (a b : ApplicationState) :
  (a == b) = true <-> a = b.
Proof. destruct a, b; cbn; split; congruence. Qed.

Lemma ApplicationState_eqb_refl (a : ApplicationState) : (a == a) = true.
Proof. now destruct a. Qed.

Lemma ApplicationState_eqb_neq (a b : ApplicationState) :
  (a == b) = false <-> a <> b.
Proof. destruct a, b; cbn; split; congruence. Qed.

(** Unfolds the methods down to the monad and the build switches. *)
Ltac unfold_methods :=
  unfold suspend, start, teardown, initialize, pause, resume,
    getApplicationState, Application_delete, setApplicationState, audit,
    HasFocus, NOTREACHED, DLOG, DCHECK, notifyStateChange,
    notifyFocusChange, observers_Notify, set_application_state_,
    audit_enabled in *;
  cbn [DCHECK_IS_ON DLOG_IS_ON] in *.

(** Case analysis on a build (its four switches) and on the members of
    an application. *)
Ltac open_build b :=
  let dc := fresh "dcheck" in
  let dl := fresh "dlog" in
  destruct b as [dc dl]; unfold_methods;
  destruct (dl FATAL), (dl INFO), (dl WARNING), dc.

Ltac open_app a :=
  let st := fresh "st" in
  let obs := fresh "obs" in
  let ev := fresh "loaded" in
  destruct a as [st obs ev]; cbn [application_state_ observers_ app_loaded_] in *.

(** A bind that returns ran both of its parts. *)
Lemma bind_returned A B (m : M A) (f : A -> M B) app es b app'' :
  bind m f app = (es, Returned (b, app'')) ->
  exists es1 a app' es2,
    m app = (es1, Returned (a, app')) /\
    f a app' = (es2, Returned (b, app'')) /\ es = es1 ++ es2.
Proof.
  unfold bind. destruct (m app) as [es1 [[a app'] | why]]; [| discriminate].
  destruct (f a app') as [es2 r] eqn:Ef. intros H. inversion H; subst.
  exists es1, a, app', es2. auto.
Qed.

(** setApplicationState touches neither the observer list nor the
    loaded event, and leaves the state it was asked for. *)
Lemma setApplicationState_frame build s app es app' :
  setApplicationState build s app = (es, Returned (tt, app')) ->
  observers_ app' = observers_ app /\ app_loaded_ app' = app_loaded_ app
  /\ application_state_ app' = s.
Proof.
  open_app app. open_build build; destruct st, s;
    cbv; intros H; inversion H; auto.
Qed.

(** C1, as the specification states it, at one input: in a build with
    every check on, an application in Stopped that is asked for Started
    goes to Started and tells its observer so. *)
Lemma stopped_is_left :
  let app := mkApplication kApplicationStateStopped [7]
               (WaitableEvent.make WaitableEvent.MANUAL
                                   WaitableEvent.NOT_SIGNALED) in
  let r := setApplicationState debug_build kApplicationStateStarted app in
  kApplicationStateStarted <> kApplicationStateStopped /\
  final_state r = Some kApplicationStateStarted /\
  final_state r <> Some kApplicationStateStopped /\
  notifications (events r) =
    [Notify [7] (onStateChange kApplicationStateStarted);
     Notify [7] (onFocusChange true)].
Proof. cbv. repeat split; congruence. Qed.

(** C1, amended: Stopped is not absorbing.  A call of setApplicationState
    in Stopped for another of the five states fails the audit's DCHECK
    when the audit is enabled and the state asked for is neither
    Preloading nor Started; in every other case the call returns with
    the application in the state asked for and the observers notified
    of it.  It never returns leaving the application in Stopped. *)
Theorem stopped_transitions build app s :
  application_state_ app = kApplicationStateStopped ->
  s <> kApplicationStateStopped ->
  is_state s ->
  let r := setApplicationState build s app in
  (if audit_enabled build
      && negb ((s == kApplicationStatePreloading)
               || (s == kApplicationStateStarted))
   then r = ([], CheckFailed DCHECK_transition)
   else final_state r = Some s /\
        In (Notify (observers_ app) (onStateChange s)) (events r))
  /\ final_state r <> Some kApplicationStateStopped.
Proof.
  unfold is_state. open_app app. intros -> Hs Ht.
  open_build build; destruct s; try congruence;
    cbv; repeat split; auto 6; congruence.
Qed.

Lemma stopped_transitions_witness :
  let app := ctor kApplicationStateStopped in
  (application_state_ app = kApplicationStateStopped /\
   kApplicationStatePaused <> kApplicationStateStopped /\
   is_state kApplicationStatePaused) /\
  (setApplicationState debug_build kApplicationStatePaused app
     = ([], CheckFailed DCHECK_transition)
   /\ final_state
        (setApplicationState debug_build kApplicationStatePaused app)
      <> Some kApplicationStateStopped).
Proof.
  assert (H1 : application_state_ (ctor kApplicationStateStopped)
               = kApplicationStateStopped) by reflexivity.
  assert (H2 : kApplicationStatePaused <> kApplicationStateStopped)
    by discriminate.
  assert (H3 : is_state kApplicationStatePaused) by discriminate.
  split; [ auto | ].
  exact (stopped_transitions debug_build (ctor kApplicationStateStopped)
           H1 H2 H3).
Defined.

(** C2, as the specification states it, at one input: Started->Stopped
    is in the specification's allowed set, yet teardown() in Started, in
    a build with every check on, stops at the audit's DCHECK; and
    Preloading->Suspended, which is not in that set, passes the audit. *)
Lemma audit_is_not_spec_allowed :
  spec_allowed kApplicationStateStarted kApplicationStateStopped /\
  teardown debug_build (ctor kApplicationStateStarted)
    = ([], CheckFailed DCHECK_transition) /\
  ~ spec_allowed kApplicationStatePreloading kApplicationStateSuspended /\
  returned (outcome (setApplicationState debug_build
                       kApplicationStateSuspended
                       (ctor kApplicationStatePreloading))) = true.
Proof.
  split; [ constructor | ]. split; [ reflexivity | ].
  split; [ intros H; inversion H | reflexivity ].
Qed.

(** C2, amended: with the audit enabled, a call of setApplicationState
    for a state other than the current one passes the audit, and
    returns, if and only if the transition is one of Paused->Suspended,
    Paused->Started, Preloading->Suspended, Preloading->Started,
    Started->Paused, Stopped->Preloading, Stopped->Started,
    Suspended->Paused, Suspended->Stopped; teardown() returns if and
    only if the current state is Suspended, or is Stopped already. *)
Theorem audit_accepts_iff build app s :
  audit_enabled build = true ->
  application_state_ app <> s ->
  (returned (outcome (setApplicationState build s app)) = true
   <-> audited (application_state_ app) s) /\
  (returned (outcome (teardown build app)) = true
   <-> application_state_ app = kApplicationStateSuspended \/
       application_state_ app = kApplicationStateStopped).
Proof.
  open_app app. destruct build as [dcheck dlog]. unfold_methods.
  destruct (dlog FATAL), dcheck; try discriminate. intros _ Hne.
  destruct (dlog INFO), (dlog WARNING), st, s; try congruence; clear Hne;
    cbv; (split; split; intros H);
    solve [ constructor | reflexivity | discriminate | inversion H
          | auto | destruct H; discriminate ].
Qed.

Lemma audit_accepts_iff_witness :
  (audit_enabled debug_build = true /\
   application_state_ (ctor kApplicationStateStarted)
     <> kApplicationStateStopped) /\
  ((returned (outcome (setApplicationState debug_build
                         kApplicationStateStopped
                         (ctor kApplicationStateStarted))) = true
    <-> audited kApplicationStateStarted kApplicationStateStopped) /\
   (returned (outcome (teardown debug_build
                         (ctor kApplicationStateStarted))) = true
    <-> kApplicationStateStarted = kApplicationStateSuspended \/
        kApplicationStateStarted = kApplicationStateStopped)).
Proof.
  assert (H1 : audit_enabled debug_build = true) by reflexivity.
  assert (H2 : application_state_ (ctor kApplicationStateStarted)
               <> kApplicationStateStopped) by discriminate.
  split; [ auto | ].
  exact (audit_accepts_iff debug_build (ctor kApplicationStateStarted)
           H1 H2).
Defined.

(** C3: a call of setApplicationState that changes the state leaves the
    application in the new state, notifies every registered observer of
    the new state, once, and issues one focus-change notification,
    carrying the new focus, exactly when the focus of the old and of the
    new state differ; HasFocus answers true for Started alone. *)
Theorem state_change_notifies build app s es app' :
  application_state_ app <> s ->
  setApplicationState build s app = (es, Returned (tt, app')) ->
  application_state_ app' = s /\
  (forall o, In o (observers_ app) -> notified o (onStateChange s) es) /\
  filter is_state_notification es
    = [Notify (observers_ app) (onStateChange s)] /\
  filter is_focus_notification es
    = (if Bool.eqb (application_state_ app == kApplicationStateStarted)
                   (s == kApplicationStateStarted)
       then []
       else [Notify (observers_ app)
               (onFocusChange (s == kApplicationStateStarted))]) /\
  (forall x b a,
      result (HasFocus build x a) = Some b ->
      (b = true <-> x = kApplicationStateStarted)).
Proof.
  intros Hne Hrun.
  assert (Hfocus : forall x b a,
             result (HasFocus build x a) = Some b ->
             (b = true <-> x = kApplicationStateStarted)).
  { intros x b a. destruct build as [dcheck dlog]. unfold_methods.
    destruct x, dcheck; cbv; intros H; inversion H; subst;
      split; congruence. }
  unfold notified. open_app app. revert Hrun.
  open_build build; destruct st, s; try congruence; clear Hne;
    cbv - [In]; intros Hrun; inversion Hrun; subst; clear Hrun;
    (split; [ reflexivity | ]);
    (split; [ intros o Ho; exists obs; cbn; auto 6 | ]);
    (split; [ reflexivity | ]); (split; [ reflexivity | exact Hfocus ]).
Qed.

Lemma state_change_notifies_witness :
  let app := mkApplication kApplicationStatePreloading [3; 5]
               (WaitableEvent.make WaitableEvent.MANUAL
                                   WaitableEvent.NOT_SIGNALED) in
  let app' := mkApplication kApplicationStateStarted [3; 5]
                (WaitableEvent.make WaitableEvent.MANUAL
                                    WaitableEvent.NOT_SIGNALED) in
  let es := [Log INFO (Transition kApplicationStatePreloading
                                  kApplicationStateStarted);
             Notify [3; 5] (onStateChange kApplicationStateStarted);
             Notify [3; 5] (onFocusChange true)] in
  (application_state_ app <> kApplicationStateStarted /\
   setApplicationState debug_build kApplicationStateStarted app
     = (es, Returned (tt, app'))) /\
  (forall o, In o [3; 5] ->
             notified o (onStateChange kApplicationStateStarted) es) /\
  filter is_focus_notification es = [Notify [3; 5] (onFocusChange true)].
Proof.
  cbv zeta.
  assert (H1 : application_state_
                 (mkApplication kApplicationStatePreloading [3; 5]
                    (WaitableEvent.make WaitableEvent.MANUAL
                                        WaitableEvent.NOT_SIGNALED))
               <> kApplicationStateStarted) by discriminate.
  pose proof (state_change_notifies debug_build
                (mkApplication kApplicationStatePreloading [3; 5]
                   (WaitableEvent.make WaitableEvent.MANUAL
                                       WaitableEvent.NOT_SIGNALED))
                H1 eq_refl) as H.
  split; [ split; [ exact H1 | reflexivity ] | ].
  split; [ exact (proj1 (proj2 H)) | exact (proj1 (proj2 (proj2 (proj2 H)))) ].
Defined.

(** C4: a call of setApplicationState for the state the application is
    in returns, leaves the application as it was, and notifies no
    observer; what it emits is the re-entry warning of DLOG(WARNING),
    and nothing else. *)
Theorem reenter_is_noop build app :
  let r := setApplicationState build (application_state_ app) app in
  outcome r = Returned (tt, app) /\
  notifications (events r) = [] /\
  events r = (if DLOG_IS_ON build WARNING
              then [Log WARNING (AttemptToReEnter (application_state_ app))]
              else []) /\
  (DLOG_IS_ON build WARNING = true ->
   events r = [Log WARNING (AttemptToReEnter (application_state_ app))]).
Proof.
  open_app app. destruct build as [dcheck dlog]. unfold_methods.
  unfold bind, get. cbn. rewrite ApplicationState_eqb_refl.
  destruct (dlog WARNING); cbn; repeat split; auto; discriminate.
Qed.

Lemma reenter_is_noop_witness :
  let app := mkApplication kApplicationStateStarted [3]
               (WaitableEvent.make WaitableEvent.MANUAL
                                   WaitableEvent.NOT_SIGNALED) in
  setApplicationState debug_build kApplicationStateStarted app
    = ([Log WARNING (AttemptToReEnter kApplicationStateStarted)],
       Returned (tt, app)).
Proof.
  cbv zeta.
  pose proof (reenter_is_noop debug_build
                (mkApplication kApplicationStateStarted [3]
                   (WaitableEvent.make WaitableEvent.MANUAL
                                       WaitableEvent.NOT_SIGNALED))) as H.
  cbv zeta in H. destruct H as [H1 [_ [_ H4]]].
  specialize (H4 eq_refl). unfold outcome in H1. unfold events in H4.
  cbn [application_state_] in *.
  destruct (setApplicationState debug_build kApplicationStateStarted _)
    as [es o]. cbn in *. subst. reflexivity.
Defined.

(** *** The loaded signal *)

Lemma loaded_after_cons c cs flag :
  loaded_after (c :: cs) flag = loaded_after cs (loaded_after [c] flag).
Proof. destruct c; reflexivity. Qed.

Lemma signalled_since_reset_cons c cs :
  signalled_since_reset cs -> signalled_since_reset (c :: cs).
Proof.
  intros (before & after & -> & Hno).
  exists (c :: before), after. split; [ reflexivity | exact Hno ].
Qed.

Lemma signalled_since_reset_inv c cs :
  signalled_since_reset (c :: cs) ->
  (c = CallSignalOnLoad /\ ~ In CallSuspend cs) \/ signalled_since_reset cs.
Proof.
  intros (before & after & Heq & Hno). destruct before as [| x before].
  - inversion Heq; subst. left. auto.
  - inversion Heq; subst. right. exists before, after. auto.
Qed.

(** [loaded_after] computes [signalled_since_reset]. *)
Lemma loaded_after_true cs : forall flag,
  loaded_after cs flag = true <->
  signalled_since_reset cs \/ (flag = true /\ ~ In CallSuspend cs).
Proof.
  induction cs as [| c cs IH]; intros flag.
  - cbn. split.
    + intros ->. right. auto.
    + intros [(before & after & Heq & _) | [H _]]; [| exact H].
      destruct before; discriminate.
  - rewrite loaded_after_cons, IH. split.
    + intros [H | [Hflag Hno]].
      * left. now apply signalled_since_reset_cons.
      * destruct c; cbn in Hflag; try discriminate;
          try (right; split; [ exact Hflag | ];
               intros [Hc | Hin]; [ discriminate | auto ]).
        left. exists [], cs. auto.
    + intros [H | [Hflag Hno]].
      * apply signalled_since_reset_inv in H as [[-> Hno] | H]; auto.
      * right. subst flag. split.
        -- destruct c; cbn; auto. exfalso. apply Hno. now left.
        -- intros Hin. apply Hno. now right.
Qed.

(** Each method keeps the event's reset policy and moves its flag as
    [loaded_after] says. *)
Lemma call_loaded build c app es app' :
  call build c app = (es, Returned (tt, app')) ->
  WaitableEvent.reset_policy (app_loaded_ app) = WaitableEvent.MANUAL ->
  WaitableEvent.reset_policy (app_loaded_ app') = WaitableEvent.MANUAL /\
  WaitableEvent.signaled (app_loaded_ app')
    = loaded_after [c] (WaitableEvent.signaled (app_loaded_ app)).
Proof.
  destruct app as [st obs [pol sig]]. cbn [app_loaded_
    WaitableEvent.reset_policy WaitableEvent.signaled]. intros Hrun ->.
  revert Hrun. destruct c; cbn [call loaded_after].
  - open_build build; destruct st; cbv; intros H; inversion H; auto.
  - open_build build; destruct st; cbv; intros H; inversion H; auto.
  - open_build build; cbv; intros H; inversion H; auto.
  - open_build build; destruct st; cbv; intros H; inversion H; auto.
  - unfold addObserver, DCHECK, bind, get, put, ret, fail.
    destruct observer as [o |], (DCHECK_IS_ON build); cbn;
      try destruct (existsb (Nat.eqb o) obs); cbn;
      intros H; inversion H; auto.
  - unfold removeObserver, DCHECK, bind, get, put, ret, fail.
    destruct observer as [o |], (DCHECK_IS_ON build); cbn;
      intros H; inversion H; auto.
  - open_build build; destruct st; cbv; intros H; inversion H; auto.
  - destruct sig; cbv; intros H; inversion H; auto.
  - cbv; intros H; inversion H; auto.
  - open_build build; cbv; intros H; inversion H; auto.
  - open_build build; destruct st; cbv; intros H; inversion H; auto.
  - intros H. apply setApplicationState_frame in H as (_ & -> & _). auto.
Qed.

Lemma calls_loaded build cs : forall app es app',
  calls build cs app = (es, Returned (tt, app')) ->
  WaitableEvent.reset_policy (app_loaded_ app) = WaitableEvent.MANUAL ->
  WaitableEvent.reset_policy (app_loaded_ app') = WaitableEvent.MANUAL /\
  WaitableEvent.signaled (app_loaded_ app')
    = loaded_after cs (WaitableEvent.signaled (app_loaded_ app)).
Proof.
  induction cs as [| c cs IH]; intros app es app' Hrun Hpol.
  - inversion Hrun; subst. auto.
  - cbn [calls] in Hrun.
    apply bind_returned in Hrun as (es1 & [] & app1 & es2 & H1 & H2 & _).
    destruct (call_loaded _ _ _ H1 Hpol) as [Hpol1 Hsig1].
    destruct (IH _ _ _ H2 Hpol1) as [Hpol2 Hsig2].
    split; [ exact Hpol2 | ].
    now rewrite loaded_after_cons, <- Hsig1.
Qed.

(** waitForLoad on a manual-reset event reports the flag and leaves the
    application as it was. *)
Lemma waitForLoad_manual timeout app :
  WaitableEvent.reset_policy (app_loaded_ app) = WaitableEvent.MANUAL ->
  waitForLoad timeout app
    = ([], Returned (WaitableEvent.signaled (app_loaded_ app), app)).
Proof.
  destruct app as [st obs [pol sig]]. cbn. intros ->.
  destruct sig; reflexivity.
Qed.

(** C7: after any calls on a newly constructed application that
    returned, waitForLoad(timeout) returns true if signalOnLoad is among
    them with no later reset (suspend), and returns false, the timeout
    elapsed, if not; it leaves the application as it was, so that after
    signalOnLoad every later waitForLoad returns true. *)
Theorem waitForLoad_is_flag build initial cs es app timeout :
  calls build cs (ctor initial) = (es, Returned (tt, app)) ->
  (signalled_since_reset cs ->
   waitForLoad timeout app = ([], Returned (true, app))) /\
  (~ signalled_since_reset cs ->
   waitForLoad timeout app = ([], Returned (false, app))) /\
  (forall timeouts es' app',
      calls build (CallSignalOnLoad :: map CallWaitForLoad timeouts) app
        = (es', Returned (tt, app')) ->
      waitForLoad timeout app' = ([], Returned (true, app'))).
Proof.
  intros Hrun.
  destruct (calls_loaded _ _ _ Hrun eq_refl) as [Hpol Hsig].
  cbn [ctor app_loaded_ WaitableEvent.make WaitableEvent.signaled] in Hsig.
  rewrite (waitForLoad_manual timeout _ Hpol), Hsig.
  split; [| split].
  - intros H. replace (loaded_after cs false) with true; [ reflexivity | ].
    symmetry. apply loaded_after_true. auto.
  - intros H. destruct (loaded_after cs false) eqn:E; [| reflexivity ].
    apply loaded_after_true in E as [E | [E _]];
      [ contradiction | discriminate ].
  - intros timeouts es' app' Hrun'.
    destruct (calls_loaded _ _ _ Hrun' Hpol) as [Hpol' Hsig'].
    rewrite (waitForLoad_manual timeout _ Hpol'), Hsig'.
    replace (loaded_after _ _) with true; [ reflexivity | ].
    symmetry. apply loaded_after_true. left.
    exists [], (map CallWaitForLoad timeouts). split; [ reflexivity | ].
    intros Hin. apply in_map_iff in Hin as (t & Ht & _). discriminate.
Qed.

Lemma waitForLoad_is_flag_witness :
  let cs := [CallStart; CallSignalOnLoad; CallWaitForLoad 10] in
  let app := mkApplication kApplicationStateStarted []
               (WaitableEvent.mk WaitableEvent.MANUAL true) in
  returned (outcome (calls debug_build cs
                       (ctor kApplicationStatePreloading))) = true /\
  signalled_since_reset cs /\
  waitForLoad 250 app = ([], Returned (true, app)).
Proof.
  cbv zeta.
  assert (Hs : signalled_since_reset
                 [CallStart; CallSignalOnLoad; CallWaitForLoad 10]).
  { exists [CallStart], [CallWaitForLoad 10]. split; [ reflexivity | ].
    intros [H | [ ]]. discriminate. }
  split; [ reflexivity | ]. split; [ exact Hs | ].
  exact (proj1 (waitForLoad_is_flag debug_build
                  kApplicationStatePreloading
                  [CallStart; CallSignalOnLoad; CallWaitForLoad 10]
                  250 eq_refl) Hs).
Defined.

(** *** suspend() and the destructor *)

(** C8, as stated, at one input: in a build with every check on,
    suspend() in Preloading, a state other than Paused, stops at the
    audit's DCHECK of its first transition: no transition is made, no
    observer is notified, and the loaded signal is not reset. *)
Lemma suspend_from_preloading_fails :
  let app := mkApplication kApplicationStatePreloading [7]
               (WaitableEvent.mk WaitableEvent.MANUAL true) in
  kApplicationStatePreloading <> kApplicationStatePaused /\
  suspend debug_build app = ([], CheckFailed DCHECK_transition) /\
  final_state (suspend debug_build app) = None.
Proof. cbv. repeat split; congruence. Qed.

(** C8, amended: from one of the five states, suspend() stops at the
    audit's DCHECK when the audit is enabled and the state is Preloading
    or Stopped.  Otherwise it returns with the application in Suspended,
    having made two transitions (to Paused, then to Suspended), each
    with its own state notification, or only the transition to Suspended
    when the state was Paused already; it has then reset the loaded
    signal: waitForLoad returns false, and true again once signalOnLoad
    has been called. *)
Theorem suspend_transitions build app timeout :
  is_state (application_state_ app) ->
  if audit_enabled build
     && ((application_state_ app == kApplicationStatePreloading)
         || (application_state_ app == kApplicationStateStopped))
  then suspend build app = ([], CheckFailed DCHECK_transition)
  else
    exists es app',
      suspend build app = (es, Returned (tt, app')) /\
      application_state_ app' = kApplicationStateSuspended /\
      filter is_state_notification es
        = (if application_state_ app == kApplicationStatePaused
           then [Notify (observers_ app)
                   (onStateChange kApplicationStateSuspended)]
           else [Notify (observers_ app)
                   (onStateChange kApplicationStatePaused);
                 Notify (observers_ app)
                   (onStateChange kApplicationStateSuspended)]) /\
      WaitableEvent.signaled (app_loaded_ app') = false /\
      result (waitForLoad timeout app') = Some false /\
      result ((signalOnLoad ;; waitForLoad timeout) app') = Some true.
Proof.
  unfold is_state. destruct app as [st obs [pol sig]].
  cbn [application_state_ observers_ app_loaded_]. intros Hst.
  open_build build; destruct st; try congruence; clear Hst;
    cbv; try reflexivity;
    (eexists; eexists; split; [ reflexivity | ]); repeat split.
Qed.

Lemma suspend_transitions_witness :
  let app := mkApplication kApplicationStateStarted [7]
               (WaitableEvent.mk WaitableEvent.MANUAL true) in
  is_state (application_state_ app) /\
  exists es app',
    suspend debug_build app = (es, Returned (tt, app')) /\
    application_state_ app' = kApplicationStateSuspended /\
    filter is_state_notification es
      = [Notify [7] (onStateChange kApplicationStatePaused);
         Notify [7] (onStateChange kApplicationStateSuspended)] /\
    WaitableEvent.signaled (app_loaded_ app') = false /\
    result (waitForLoad 250 app') = Some false /\
    result ((signalOnLoad ;; waitForLoad 250) app') = Some true.
Proof.
  cbv zeta.
  assert (H : is_state
                (application_state_
                   (mkApplication kApplicationStateStarted [7]
                      (WaitableEvent.mk WaitableEvent.MANUAL true))))
    by discriminate.
  split; [ exact H | ].
  exact (suspend_transitions debug_build
           (mkApplication kApplicationStateStarted [7]
              (WaitableEvent.mk WaitableEvent.MANUAL true)) 250 H).
Defined.

(** C9: the destructor DCHECKs application_state_ == Stopped: it stops
    at that check exactly when checks are on and the state is not
    Stopped; an application on which teardown() returned is in Stopped
    and its destructor returns. *)
Theorem destructor_asserts_stopped build app :
  (returned (outcome (Application_delete build app)) = false <->
   DCHECK_IS_ON build = true /\
   application_state_ app <> kApplicationStateStopped) /\
  (Application_delete build app = ([], CheckFailed DCHECK_dtor_stopped) \/
   Application_delete build app = ([], Returned (tt, app))) /\
  (forall es app',
      teardown build app = (es, Returned (tt, app')) ->
      application_state_ app' = kApplicationStateStopped /\
      Application_delete build app' = ([], Returned (tt, app'))).
Proof.
  split; [| split].
  - open_app app. destruct build as [dcheck dlog]. unfold_methods.
    destruct dcheck, st; cbv; split;
      try discriminate; try (intros [H1 H2]; congruence);
      intros _; split; congruence.
  - open_app app. destruct build as [dcheck dlog]. unfold_methods.
    destruct dcheck, st; cbv; auto.
  - intros es app' H. unfold teardown in H.
    apply setApplicationState_frame in H as (_ & _ & Hst).
    split; [ exact Hst | ].
    destruct app' as [st' obs' ev']. cbn in Hst. subst st'.
    destruct build as [dcheck dlog]. unfold_methods.
    destruct dcheck; reflexivity.
Qed.

Lemma destructor_asserts_stopped_witness :
  let app := mkApplication kApplicationStateSuspended [7]
               (WaitableEvent.mk WaitableEvent.MANUAL false) in
  let app' := mkApplication kApplicationStateStopped [7]
                (WaitableEvent.mk WaitableEvent.MANUAL false) in
  (DCHECK_IS_ON debug_build = true /\
   application_state_ app <> kApplicationStateStopped) /\
  returned (outcome (Application_delete debug_build app)) = false /\
  Application_delete debug_build app' = ([], Returned (tt, app')).
Proof.
  cbv zeta.
  assert (H : DCHECK_IS_ON debug_build = true /\
              application_state_
                (mkApplication kApplicationStateSuspended [7]
                   (WaitableEvent.mk WaitableEvent.MANUAL false))
              <> kApplicationStateStopped)
    by (split; [ reflexivity | discriminate ]).
  pose proof (destructor_asserts_stopped debug_build
                (mkApplication kApplicationStateSuspended [7]
                   (WaitableEvent.mk WaitableEvent.MANUAL false)))
    as [Hiff [_ Htear]].
  split; [ exact H | ]. split; [ exact (proj2 Hiff H) | ].
  exact (proj2 (Htear _ _ eq_refl)).
Defined.

End Lifecycle.

(** ** Settlement of a promise node *)

Section Settlement.

Import Promise.

Variables V E : Type.

Local Abbreviation Node := (PromiseNode V E).

(** An attempt on a settled node is refused and changes nothing. *)
Lemma attempt_settled (a : Attempt V E) (n : Node) :
  state n <> Pending -> attempt a n = (inl AlreadySettled, n).
Proof.
  intros H. destruct a; unfold attempt, resolve, reject, settle, cancel;
    destruct (state n); congruence.
Qed.

Lemma after_settled (attempts : list (Attempt V E)) (n : Node) :
  state n <> Pending -> after attempts n = n.
Proof.
  intros H. induction attempts as [| a rest IH]; [ reflexivity | ].
  cbn [after]. rewrite attempt_settled by exact H. exact IH.
Qed.

Lemma after_app (xs ys : list (Attempt V E)) (n : Node) :
  after (xs ++ ys) n = after ys (after xs n).
Proof.
  revert n. induction xs as [| a xs IH]; intros n; [ reflexivity | ].
  cbn [after app]. apply IH.
Qed.

(** An attempt moves the state only out of Pending. *)
Lemma attempt_state (a : Attempt V E) (n : Node) :
  state (snd (attempt a n)) = state n \/ state n = Pending.
Proof.
  destruct (state n) eqn:Hs; auto; left;
    rewrite attempt_settled; cbn; congruence.
Qed.

(** C5: once a node has left Pending, whatever attempts follow, its
    state and its value stay what they were (so it never returns to
    Pending and never takes another settled state), and each further
    attempt to resolve, reject or cancel it answers AlreadySettled and
    leaves the node as it was. *)
Theorem settlement_is_monotonic
    (n : Node) (before later : list (Attempt V E)) (a : Attempt V E) :
  state (after before n) <> Pending ->
  state (after (before ++ later) n) = state (after before n) /\
  value (after (before ++ later) n) = value (after before n) /\
  state (after (before ++ later) n) <> Pending /\
  attempt a (after (before ++ later) n)
    = (inl AlreadySettled, after (before ++ later) n).
Proof.
  intros H. rewrite after_app, after_settled by exact H.
  repeat split; auto. now apply attempt_settled.
Qed.

End Settlement.

Lemma settlement_is_monotonic_witness :
  let n := Promise.mkNode 1 Promise.Pending None [] []
             (Promise.mkExecutor Promise.None_ true true)
             Promise.MustCatchRejection in
  let settled := Promise.mkNode 1 Promise.Resolved
                   (Some (Promise.Value bool 5)) [] []
                   (Promise.mkExecutor Promise.None_ true true)
                   Promise.MustCatchRejection in
  Promise.state (Promise.after [Promise.TryResolve bool 5] n)
    <> Promise.Pending /\
  Promise.after ([Promise.TryResolve bool 5]
                 ++ [Promise.TryReject nat true; Promise.TryCancel nat bool;
                     Promise.TryResolve bool 7]) n = settled /\
  Promise.attempt (Promise.TryResolve bool 7) settled
    = (inl Promise.AlreadySettled, settled).
Proof.
  cbv zeta.
  assert (H : Promise.state
                (Promise.after [Promise.TryResolve bool 5]
                   (Promise.mkNode 1 Promise.Pending None [] []
                      (Promise.mkExecutor Promise.None_ true true)
                      Promise.MustCatchRejection))
              <> Promise.Pending) by discriminate.
  split; [ exact H | ]. split; [ reflexivity | ].
  exact (proj2 (proj2 (proj2
           (settlement_is_monotonic _ _
              [Promise.TryReject nat true; Promise.TryCancel nat bool;
               Promise.TryResolve bool 7]
              (Promise.TryResolve bool 7) H)))).
Defined.

(** ** The no-op executor *)

Section NoOpExecutor.

Import NoOpPromiseExecutor.

(** C6: the policy constant of NoOpPromiseExecutor is kNever, the policy
    under which a node is never executed automatically;
    GetPrerequisitePolicy returns that constant, for an executor built
    with any capabilities and after any number of calls of Execute. *)
Theorem noop_policy_is_never (can_resolve can_reject : bool) (n : nat) :
  kPrerequisitePolicy = PromiseExecutor.kNever /\
  GetPrerequisitePolicy (new can_resolve can_reject) = kPrerequisitePolicy /\
  GetPrerequisitePolicy (executed n (new can_resolve can_reject))
    = GetPrerequisitePolicy (new can_resolve can_reject) /\
  executed n (new can_resolve can_reject) = new can_resolve can_reject.
Proof.
  repeat split. induction n as [| n IH]; [ reflexivity | exact IH ].
Qed.

End NoOpExecutor.

(** ** polymorphic_downcast *)

Section PolymorphicDowncast.

Import Downcast.

Context {Base Derived : Type} {casts : Casts Base Derived}
        {agree : CastsAgree casts}.

(** C10: whenever polymorphic_downcast returns, it returns
    static_cast<Derived>(base); and when dynamic_cast<Derived>(base) ==
    base, its DCHECK does not fire in any build, and the pointer it
    returns compares equal to the one passed in. *)
Theorem polymorphic_downcast_is_static_cast (build : Build) (base : Base) :
  (forall d, polymorphic_downcast build base = Returned d ->
             d = static_cast base) /\
  (DCHECK_IS_ON build = false ->
   polymorphic_downcast build base = Returned (static_cast base)) /\
  (ptr_eq (dynamic_cast base) base = true ->
   polymorphic_downcast build base = Returned (static_cast base) /\
   ptr_eq (static_cast base) base = true).
Proof.
  unfold polymorphic_downcast. split; [| split].
  - intros d. destruct (DCHECK_IS_ON build && _); congruence.
  - intros ->. reflexivity.
  - intros Hdyn. rewrite Hdyn, andb_false_r.
    split; [ reflexivity | ]. now rewrite (static_is_dynamic base Hdyn).
Qed.

End PolymorphicDowncast.

Section FruitsAndBananas.

Import Downcast Downcast.Fruits.

(** The casts of the Fruit/Banana example agree. *)
#[export] Instance fruit_banana_agree : CastsAgree fruit_banana.
Proof.
  constructor. intros [[addr []] |]; cbn; try discriminate; reflexivity.
Defined.

Lemma polymorphic_downcast_is_static_cast_witness :
  ptr_eq (dynamic_cast a_banana) a_banana = true /\
  polymorphic_downcast debug_build a_banana = Returned a_banana /\
  polymorphic_downcast debug_build an_apple
    = CheckFailed DCHECK_dynamic_cast.
Proof.
  split; [ reflexivity | ]. split; [| reflexivity ].
  exact (proj1 (proj2 (proj2
           (polymorphic_downcast_is_static_cast debug_build a_banana))
           eq_refl)).
Defined.

End FruitsAndBananas.

(** ** Sequences of calls and what the observers see *)

Section Notifications.

Import Application Observed Traces.

(** Unfolds the methods of a call down to the monad, then splits the
    build into its switches. *)
Ltac expand :=
  unfold call, suspend, start, teardown, initialize, pause, resume,
    getApplicationState, waitForLoad, signalOnLoad, Application_delete,
    setApplicationState, audit, HasFocus, NOTREACHED, DLOG, DCHECK,
    notifyStateChange, notifyFocusChange, observers_Notify,
    set_application_state_, audit_enabled in *;
  cbn [DCHECK_IS_ON DLOG_IS_ON] in *.

Ltac cases_of b :=
  let dc := fresh "dcheck" in
  let dl := fresh "dlog" in
  destruct b as [dc dl]; expand;
  destruct (dl FATAL), (dl INFO), (dl WARNING), dc.

(** Closes the goals a computed run leaves: equations, paths of audited
    transitions, memberships of a computed event list. *)
Ltac close_run :=
  repeat match goal with
         | |- _ /\ _ => split
         | |- _ = _ => reflexivity
         | |- chain _ _ _ => constructor
         | |- audited _ _ => constructor
         | |- _ -> _ => intro
         | H : _ \/ _ |- _ => destruct H
         | H : False |- _ => destruct H
         | H : Notify _ _ = Notify _ _ |- _ => inversion H; clear H; subst
         | H : Log _ _ = Notify _ _ |- _ => discriminate H
         | H : true = false |- _ => discriminate H
         | H : false = true |- _ => discriminate H
         end;
  try congruence.

Lemma last_cons_default A (l : list A) : forall (x d : A),
  last (x :: l) d = last l x.
Proof.
  induction l as [| y l IH]; intros x d; [ reflexivity | ].
  change (last (y :: l) d = last (y :: l) x). now rewrite !IH.
Qed.

Lemma last_app_default A (l1 l2 : list A) : forall d : A,
  last (l1 ++ l2) d = last l2 (last l1 d).
Proof.
  induction l1 as [| x l1 IH]; intros d; [ reflexivity | ].
  cbn [app]. now rewrite !last_cons_default, IH.
Qed.

Lemma changes_app A (eqb : A -> A -> bool) (l1 l2 : list A) : forall prev,
  changes eqb prev (l1 ++ l2)
  = changes eqb prev l1 && changes eqb (last l1 prev) l2.
Proof.
  induction l1 as [| x l1 IH]; intros prev; [ reflexivity | ].
  rewrite last_cons_default. cbn [app changes].
  now rewrite IH, andb_assoc.
Qed.

Lemma chain_app A (R : A -> A -> Prop) (l1 l2 : list A) : forall prev,
  chain R prev l1 -> chain R (last l1 prev) l2 -> chain R prev (l1 ++ l2).
Proof.
  induction l1 as [| x l1 IH]; intros prev H1 H2; [ exact H2 | ].
  rewrite last_cons_default in H2. inversion H1; subst.
  cbn [app]. constructor; auto.
Qed.

(** What one returned call tells the observers about state and focus. *)
Lemma call_trace build c app es app' :
  call build c app = (es, Returned (tt, app')) ->
  changes ApplicationState_eqb (application_state_ app) (state_values es)
    = true /\
  last (state_values es) (application_state_ app) = application_state_ app' /\
  focus_values es
    = (if Bool.eqb (focus (application_state_ app))
                   (focus (application_state_ app'))
       then [] else [focus (application_state_ app')]) /\
  (audit_enabled build = true ->
   chain audited (application_state_ app) (state_values es)) /\
  (DCHECK_IS_ON build = true ->
   is_state (application_state_ app) -> is_state (application_state_ app')).
Proof.
  unfold is_state. destruct app as [st obs [pol sig]].
  cbn [application_state_]. destruct c.
  - cases_of build; destruct st; cbv; intros H; inversion H; close_run.
  - cases_of build; destruct st; cbv; intros H; inversion H; close_run.
  - cases_of build; destruct st; cbv; intros H; inversion H; close_run.
  - cases_of build; destruct st; cbv; intros H; inversion H; close_run.
  - unfold call, addObserver, DCHECK, bind, get, put, ret, fail.
    destruct observer as [o |], (DCHECK_IS_ON build); cbn;
      try destruct (existsb (Nat.eqb o) obs); cbn;
      intros H; inversion H; destruct st; cbv; close_run.
  - unfold call, removeObserver, DCHECK, bind, get, put, ret, fail.
    destruct observer as [o |], (DCHECK_IS_ON build); cbn;
      intros H; inversion H; destruct st; cbv; close_run.
  - cases_of build; destruct st; cbv; intros H; inversion H; close_run.
  - expand. destruct sig, pol, st; cbv; intros H; inversion H; close_run.
  - expand. destruct st; cbv; intros H; inversion H; close_run.
  - cases_of build; destruct st; cbv; intros H; inversion H; close_run.
  - cases_of build; destruct st; cbv; intros H; inversion H; close_run.
  - cases_of build; destruct st, state; cbv; intros H; inversion H;
      close_run.
Qed.

(** A returned sequence of calls, cut after its first call. *)
Lemma calls_cons_returned build c cs app es app' :
  calls build (c :: cs) app = (es, Returned (tt, app')) ->
  exists es1 app1 es2,
    call build c app = (es1, Returned (tt, app1)) /\
    calls build cs app1 = (es2, Returned (tt, app')) /\ es = es1 ++ es2.
Proof.
  cbn [calls]. unfold bind.
  destruct (call build c app) as [es1 [[[] app1] | why]]; [| discriminate].
  destruct (calls build cs app1) as [es2 r] eqn:E. intros H.
  inversion H; subst. exists es1, app1, es2. auto.
Qed.

(** X1: over any returned sequence of calls, each state the observers
    are told differs from the one before it (the first from the state
    the sequence started in), and the last one told is the state the
    application is in; with none told, the state is the starting one. *)
Theorem state_notifications_track_state build cs : forall app es app',
  calls build cs app = (es, Returned (tt, app')) ->
  changes ApplicationState_eqb (application_state_ app) (state_values es)
    = true /\
  last (state_values es) (application_state_ app) = application_state_ app'.
Proof.
  induction cs as [| c cs IH]; intros app es app' Hrun.
  - inversion Hrun; subst. auto.
  - apply calls_cons_returned in Hrun as (es1 & app1 & es2 & H1 & H2 & ->).
    apply call_trace in H1 as (Hch & Hlast & _).
    destruct (IH _ _ _ H2) as [Hch2 Hlast2].
    unfold state_values in *. rewrite flat_map_app.
    rewrite changes_app, last_app_default, Hch, Hlast, Hch2, Hlast2. auto.
Qed.

Lemma state_notifications_track_state_witness :
  let app := mkApplication kApplicationStatePreloading [7]
               (WaitableEvent.mk WaitableEvent.MANUAL false) in
  exists es app',
    calls debug_build [CallStart; CallSuspend; CallTeardown] app
      = (es, Returned (tt, app')) /\
    state_values es
      = [kApplicationStateStarted; kApplicationStatePaused;
         kApplicationStateSuspended; kApplicationStateStopped] /\
    changes ApplicationState_eqb kApplicationStatePreloading (state_values es)
      = true /\
    last (state_values es) kApplicationStatePreloading
      = application_state_ app'.
Proof.
  cbv zeta. eexists. eexists. split; [ reflexivity | ].
  split; [ reflexivity | ].
  exact (state_notifications_track_state debug_build
           [CallStart; CallSuspend; CallTeardown]
           (mkApplication kApplicationStatePreloading [7]
              (WaitableEvent.mk WaitableEvent.MANUAL false))
           eq_refl).
Defined.

(** X2: over any returned sequence of calls, the focus values the
    observers are told alternate, starting with the opposite of the focus
    the sequence started with, and the last one told is the focus of the
    state the application is in. *)
Theorem focus_notifications_alternate build cs : forall app es app',
  calls build cs app = (es, Returned (tt, app')) ->
  changes Bool.eqb (focus (application_state_ app)) (focus_values es) = true /\
  last (focus_values es) (focus (application_state_ app))
    = focus (application_state_ app').
Proof.
  induction cs as [| c cs IH]; intros app es app' Hrun.
  - inversion Hrun; subst. auto.
  - apply calls_cons_returned in Hrun as (es1 & app1 & es2 & H1 & H2 & ->).
    apply call_trace in H1 as (_ & _ & Hf & _).
    destruct (IH _ _ _ H2) as [Hch2 Hlast2].
    unfold focus_values in *. rewrite flat_map_app, Hf.
    rewrite changes_app, last_app_default.
    destruct (focus (application_state_ app)),
             (focus (application_state_ app1));
      cbn in *; rewrite ?Hch2, ?Hlast2; auto.
Qed.

Lemma focus_notifications_alternate_witness :
  let app := mkApplication kApplicationStatePreloading [7]
               (WaitableEvent.mk WaitableEvent.MANUAL false) in
  returned (outcome (calls debug_build [CallStart; CallSuspend; CallTeardown]
                       app)) = true /\
  focus_values (events (calls debug_build
                          [CallStart; CallSuspend; CallTeardown] app))
    = [true; false] /\
  changes Bool.eqb false [true; false] = true.
Proof.
  cbv zeta. split; [ reflexivity | ]. split; [ reflexivity | ].
  exact (proj1 (focus_notifications_alternate debug_build
                  [CallStart; CallSuspend; CallTeardown]
                  (mkApplication kApplicationStatePreloading [7]
                     (WaitableEvent.mk WaitableEvent.MANUAL false))
                  eq_refl)).
Defined.

(** X3: in a build with the audit enabled, the states the observers are
    told over any returned sequence of calls form a path of transitions
    of the audit's table, starting from the state the sequence started
    in. *)
Theorem notified_states_follow_audit build cs : forall app es app',
  audit_enabled build = true ->
  calls build cs app = (es, Returned (tt, app')) ->
  chain audited (application_state_ app) (state_values es).
Proof.
  induction cs as [| c cs IH]; intros app es app' Haudit Hrun.
  - inversion Hrun; subst. constructor.
  - apply calls_cons_returned in Hrun as (es1 & app1 & es2 & H1 & H2 & ->).
    apply call_trace in H1 as (_ & Hlast & _ & Hchain & _).
    unfold state_values in *. rewrite flat_map_app.
    apply chain_app; [ exact (Hchain Haudit) | ].
    rewrite Hlast. exact (IH _ _ _ Haudit H2).
Qed.

Lemma notified_states_follow_audit_witness :
  let app := mkApplication kApplicationStatePreloading [7]
               (WaitableEvent.mk WaitableEvent.MANUAL false) in
  audit_enabled debug_build = true /\
  returned (outcome (calls debug_build [CallStart; CallSuspend; CallTeardown]
                       app)) = true /\
  chain audited kApplicationStatePreloading
    [kApplicationStateStarted; kApplicationStatePaused;
     kApplicationStateSuspended; kApplicationStateStopped].
Proof.
  cbv zeta. split; [ reflexivity | ]. split; [ reflexivity | ].
  exact (notified_states_follow_audit debug_build
           [CallStart; CallSuspend; CallTeardown]
           (mkApplication kApplicationStatePreloading [7]
              (WaitableEvent.mk WaitableEvent.MANUAL false))
           eq_refl eq_refl).
Defined.

(** X4: in a build with DCHECKs on, an application constructed in one of
    the five states is never left in kApplicationStateTotal by a returned
    sequence of calls, and getApplicationState then returns its state,
    changing and logging nothing. *)
Theorem state_is_never_total build cs : forall app es app',
  DCHECK_IS_ON build = true ->
  is_state (application_state_ app) ->
  calls build cs app = (es, Returned (tt, app')) ->
  is_state (application_state_ app') /\
  getApplicationState build app'
    = ([], Returned (application_state_ app', app')).
Proof.
  assert (Hget : forall app,
             DCHECK_IS_ON build = true -> is_state (application_state_ app) ->
             getApplicationState build app
             = ([], Returned (application_state_ app, app))).
  { intros [st obs ev] Hd Hst. unfold is_state in Hst. expand.
    rewrite Hd. destruct st; cbv in *; congruence. }
  induction cs as [| c cs IH]; intros app es app' Hd Hst Hrun.
  - inversion Hrun; subst. auto.
  - apply calls_cons_returned in Hrun as (es1 & app1 & es2 & H1 & H2 & ->).
    apply call_trace in H1 as (_ & _ & _ & _ & Hkeep).
    exact (IH _ _ _ Hd (Hkeep Hd Hst) H2).
Qed.

Lemma state_is_never_total_witness :
  let app := ctor kApplicationStatePreloading in
  let cs := [CallSetApplicationState kApplicationStateTotal] in
  DCHECK_IS_ON debug_build = true /\
  is_state (application_state_ app) /\
  returned (outcome (calls debug_build cs app)) = false /\
  final_state (calls release_build cs app) = Some kApplicationStateTotal /\
  getApplicationState debug_build
    (mkApplication kApplicationStateStarted []
       (WaitableEvent.mk WaitableEvent.MANUAL false))
  = ([], Returned (kApplicationStateStarted,
                   mkApplication kApplicationStateStarted []
                     (WaitableEvent.mk WaitableEvent.MANUAL false))).
Proof.
  cbv zeta.
  assert (Hst : is_state (application_state_ (ctor kApplicationStatePreloading)))
    by discriminate.
  split; [ reflexivity | ]. split; [ exact Hst | ].
  split; [ reflexivity | ]. split; [ reflexivity | ].
  exact (proj2 (state_is_never_total debug_build [CallStart]
                  (ctor kApplicationStatePreloading) eq_refl Hst eq_refl)).
Defined.

(** X5: initialize() and start() ask for Preloading.  In a build with
    DCHECKs on, either stops at its DCHECK, having done nothing, in any
    other state.  In Preloading, initialize() returns leaving the
    application as it was and start() returns with the application in
    Started, the observers told onStateChange(Started) and then
    onFocusChange(true). *)
Theorem start_asks_for_preloading build app :
  (DCHECK_IS_ON build = true ->
   application_state_ app <> kApplicationStatePreloading ->
   initialize build app = ([], CheckFailed DCHECK_preloading) /\
   start build app = ([], CheckFailed DCHECK_preloading)) /\
  (application_state_ app = kApplicationStatePreloading ->
   initialize build app = ([], Returned (tt, app)) /\
   final (start build app)
     = Some (mkApplication kApplicationStateStarted (observers_ app)
                           (app_loaded_ app)) /\
   notifications (events (start build app))
     = [Notify (observers_ app) (onStateChange kApplicationStateStarted);
        Notify (observers_ app) (onFocusChange true)]).
Proof.
  destruct app as [st obs ev]. cbn [application_state_ observers_ app_loaded_].
  split.
  - intros Hd Hst. destruct build as [dcheck dlog]. expand.
    cbn in Hd. subst dcheck. destruct st; try congruence; cbv; auto.
  - intros ->. cases_of build; cbv; auto.
Qed.

Lemma start_asks_for_preloading_witness :
  let app := mkApplication kApplicationStatePaused [7]
               (WaitableEvent.mk WaitableEvent.MANUAL false) in
  (DCHECK_IS_ON debug_build = true /\
   application_state_ app <> kApplicationStatePreloading) /\
  start debug_build app = ([], CheckFailed DCHECK_preloading) /\
  final_state (start release_build app) = Some kApplicationStateStarted.
Proof.
  cbv zeta.
  assert (H : application_state_
                (mkApplication kApplicationStatePaused [7]
                   (WaitableEvent.mk WaitableEvent.MANUAL false))
              <> kApplicationStatePreloading) by discriminate.
  split; [ split; [ reflexivity | exact H ] | ].
  split; [| reflexivity ].
  exact (proj2 (proj1 (start_asks_for_preloading debug_build
                         (mkApplication kApplicationStatePaused [7]
                            (WaitableEvent.mk WaitableEvent.MANUAL false)))
                  eq_refl H)).
Defined.

(** X6: initialize, pause, resume, addObserver, removeObserver,
    waitForLoad, signalOnLoad and getApplicationState, when they return,
    have logged nothing, notified nobody and left application_state_ as
    it was. *)
Theorem quiet_calls_are_silent build c app es app' :
  quiet c = true ->
  call build c app = (es, Returned (tt, app')) ->
  es = [] /\ application_state_ app' = application_state_ app.
Proof.
  destruct app as [st obs [pol sig]]. cbn [application_state_].
  destruct c; try discriminate; intros _.
  - cases_of build; destruct st; cbv; intros H; inversion H; auto.
  - cases_of build; cbv; intros H; inversion H; auto.
  - unfold call, addObserver, DCHECK, bind, get, put, ret, fail.
    destruct observer as [o |], (DCHECK_IS_ON build); cbn;
      try destruct (existsb (Nat.eqb o) obs); cbn;
      intros H; inversion H; auto.
  - unfold call, removeObserver, DCHECK, bind, get, put, ret, fail.
    destruct observer as [o |], (DCHECK_IS_ON build); cbn;
      intros H; inversion H; auto.
  - expand. destruct sig, pol; cbv; intros H; inversion H; auto.
  - expand. cbv; intros H; inversion H; auto.
  - cases_of build; cbv; intros H; inversion H; auto.
  - cases_of build; destruct st; cbv; intros H; inversion H; auto.
Qed.

Lemma quiet_calls_are_silent_witness :
  let app := mkApplication kApplicationStateStarted [7]
               (WaitableEvent.mk WaitableEvent.MANUAL false) in
  exists es app',
    quiet CallSignalOnLoad = true /\
    call debug_build CallSignalOnLoad app = (es, Returned (tt, app')) /\
    app' <> app /\
    es = [] /\ application_state_ app' = application_state_ app.
Proof.
  cbv zeta. eexists. eexists. split; [ reflexivity | ].
  split; [ reflexivity | ]. split; [ discriminate | ].
  exact (quiet_calls_are_silent debug_build CallSignalOnLoad
           (mkApplication kApplicationStateStarted [7]
              (WaitableEvent.mk WaitableEvent.MANUAL false))
           eq_refl eq_refl).
Defined.

(** X7: a call of any method that stops at a DCHECK or NOTREACHED has
    notified no observer before stopping. *)
Theorem failed_call_notifies_nobody build c app es why :
  call build c app = (es, CheckFailed why) ->
  notifications es = [].
Proof.
  destruct app as [st obs [pol sig]]. destruct c.
  - cases_of build; destruct st; cbv; intros H; inversion H; auto.
  - cases_of build; destruct st; cbv; intros H; inversion H; auto.
  - cases_of build; cbv; intros H; inversion H; auto.
  - cases_of build; destruct st; cbv; intros H; inversion H; auto.
  - unfold call, addObserver, DCHECK, bind, get, put, ret, fail.
    destruct observer as [o |], (DCHECK_IS_ON build); cbn;
      try destruct (existsb (Nat.eqb o) obs); cbn;
      intros H; inversion H; auto.
  - unfold call, removeObserver, DCHECK, bind, get, put, ret, fail.
    destruct observer as [o |], (DCHECK_IS_ON build); cbn;
      intros H; inversion H; auto.
  - cases_of build; destruct st; cbv; intros H; inversion H; auto.
  - expand. destruct sig, pol; cbv; intros H; inversion H; auto.
  - expand. cbv; intros H; inversion H; auto.
  - cases_of build; cbv; intros H; inversion H; auto.
  - cases_of build; destruct st; cbv; intros H; inversion H; auto.
  - cases_of build; destruct st, state; cbv; intros H; inversion H; auto.
Qed.

Lemma failed_call_notifies_nobody_witness :
  let app := mkApplication kApplicationStatePreloading [7]
               (WaitableEvent.mk WaitableEvent.MANUAL false) in
  let build := mkBuild true (fun sev => match sev with
                                        | INFO => true
                                        | _ => false
                                        end) in
  call build (CallSetApplicationState kApplicationStateTotal) app
    = ([Log INFO (Transition kApplicationStatePreloading
                             kApplicationStateTotal)],
       CheckFailed DCHECK_not_total) /\
  notifications [Log INFO (Transition kApplicationStatePreloading
                                      kApplicationStateTotal)] = [].
Proof.
  cbv zeta. split; [ reflexivity | ].
  exact (failed_call_notifies_nobody
           (mkBuild true (fun sev => match sev with
                                     | INFO => true
                                     | _ => false
                                     end))
           (CallSetApplicationState kApplicationStateTotal)
           (mkApplication kApplicationStatePreloading [7]
              (WaitableEvent.mk WaitableEvent.MANUAL false))
           eq_refl).
Defined.

(** *** Who is notified *)

(** A returned call that does not edit the observer list leaves it as it
    was and addresses each of its notifications to that list. *)
Lemma call_targets build c app es app' :
  registers c = false ->
  call build c app = (es, Returned (tt, app')) ->
  observers_ app' = observers_ app /\ addressed_to (observers_ app) es.
Proof.
  unfold addressed_to. destruct app as [st obs [pol sig]].
  cbn [observers_]. destruct c; try discriminate; intros _.
  - cases_of build; destruct st; cbv; intros H; inversion H; close_run.
  - cases_of build; destruct st; cbv; intros H; inversion H; close_run.
  - cases_of build; cbv; intros H; inversion H; close_run.
  - cases_of build; destruct st; cbv; intros H; inversion H; close_run.
  - cases_of build; destruct st; cbv; intros H; inversion H; close_run.
  - expand. destruct sig, pol; cbv; intros H; inversion H; close_run.
  - expand. cbv; intros H; inversion H; close_run.
  - cases_of build; cbv; intros H; inversion H; close_run.
  - cases_of build; destruct st; cbv; intros H; inversion H; close_run.
  - cases_of build; destruct st, state; cbv; intros H; inversion H;
      close_run.
Qed.

(** A state change tells the registered observers the new state. *)
Lemma setApplicationState_tells build s app es app' :
  application_state_ app <> s ->
  setApplicationState build s app = (es, Returned (tt, app')) ->
  In (Notify (observers_ app) (onStateChange s)) es.
Proof.
  destruct app as [st obs ev]. cbn [application_state_ observers_].
  intros Hne. cases_of build; destruct st, s; try congruence; clear Hne;
    cbv; intros H; inversion H; auto 6.
Qed.

(** The same over a returned sequence of such calls. *)
Lemma calls_targets build cs : forall app es app',
  forallb (fun c => negb (registers c)) cs = true ->
  calls build cs app = (es, Returned (tt, app')) ->
  observers_ app' = observers_ app /\ addressed_to (observers_ app) es.
Proof.
  induction cs as [| c cs IH]; intros app es app' Hreg Hrun.
  - inversion Hrun; subst. split; [ reflexivity | ]. intros t oc [].
  - cbn [forallb] in Hreg. apply andb_prop in Hreg as [Hc Hcs].
    apply negb_true_iff in Hc.
    apply calls_cons_returned in Hrun as (es1 & app1 & es2 & H1 & H2 & ->).
    destruct (call_targets _ _ _ Hc H1) as [Hobs1 Hto1].
    destruct (IH _ _ _ Hcs H2) as [Hobs2 Hto2].
    rewrite Hobs1 in Hobs2, Hto2. split; [ exact Hobs2 | ].
    intros t oc Hin. apply in_app_or in Hin as [Hin | Hin]; eauto.
Qed.

(** X8: over a returned sequence of calls with no addObserver or
    removeObserver among them, the observer list stays as it was and
    every notification is addressed to exactly that list: an observer
    receives a notification of the sequence if and only if it was
    registered when the sequence began and the sequence notified at
    all. *)
Theorem notifications_reach_the_registered build cs app es app' o :
  forallb (fun c => negb (registers c)) cs = true ->
  calls build cs app = (es, Returned (tt, app')) ->
  observers_ app' = observers_ app /\
  addressed_to (observers_ app) es /\
  ((exists oc, notified o oc es) <->
   In o (observers_ app) /\ notifications es <> []).
Proof.
  intros Hreg Hrun. destruct (calls_targets _ _ _ Hreg Hrun) as [Hobs Hto].
  split; [ exact Hobs | ]. split; [ exact Hto | ]. split.
  - intros (oc & targets & Hin & Ho). rewrite (Hto _ _ Hin) in Ho.
    split; [ exact Ho | ]. intros Hnil.
    assert (Hf : In (Notify targets oc) (notifications es)).
    { apply filter_In. split; [ exact Hin | reflexivity ]. }
    rewrite Hnil in Hf. destruct Hf.
  - intros [Ho Hne]. destruct (notifications es) as [| e rest] eqn:E;
      [ congruence | ].
    assert (Hin : In e (notifications es)) by (rewrite E; now left).
    apply filter_In in Hin as [Hin He]. destruct e as [| targets oc];
      [ discriminate | ].
    exists oc, targets. split; [ exact Hin | ].
    now rewrite (Hto _ _ Hin).
Qed.

Lemma notifications_reach_the_registered_witness :
  let app := mkApplication kApplicationStatePreloading [3; 5]
               (WaitableEvent.mk WaitableEvent.MANUAL false) in
  exists es app',
    calls debug_build [CallStart; CallSuspend] app
      = (es, Returned (tt, app')) /\
    In (Notify [3; 5] (onFocusChange false)) es /\
    observers_ app' = [3; 5] /\ addressed_to [3; 5] es /\
    ((exists oc, notified 5 oc es) <->
     In 5 [3; 5] /\ notifications es <> []).
Proof.
  cbv zeta. eexists. eexists. split; [ reflexivity | ].
  split; [ cbn; auto 8 | ].
  exact (notifications_reach_the_registered debug_build
           [CallStart; CallSuspend]
           (mkApplication kApplicationStatePreloading [3; 5]
              (WaitableEvent.mk WaitableEvent.MANUAL false))
           5 eq_refl eq_refl).
Defined.

(** X9: addObserver(observer), for a non-null observer, returns silently
    with the state as it was and the observer registered: the next state
    change notifies it of the new state. *)
Theorem added_observer_is_notified build o app es app' s es2 app'' :
  addObserver build (Some o) app = (es, Returned (tt, app')) ->
  application_state_ app' <> s ->
  setApplicationState build s app' = (es2, Returned (tt, app'')) ->
  es = [] /\ application_state_ app' = application_state_ app /\
  In o (observers_ app') /\ notified o (onStateChange s) es2.
Proof.
  intros Hadd Hne Hset.
  assert (Hin : es = [] /\ application_state_ app' = application_state_ app
                /\ In o (observers_ app')).
  { destruct app as [st obs ev]. revert Hadd.
    unfold addObserver, DCHECK, bind, get, put, ret, fail.
    destruct (DCHECK_IS_ON build); cbn;
      destruct (existsb (Nat.eqb o) obs) eqn:Ex; cbn;
      intros H; inversion H; subst; cbn; repeat split;
      try (apply in_or_app; right; now left);
      apply existsb_exists in Ex as (x & Hx & Heq);
      apply Nat.eqb_eq in Heq; now subst. }
  destruct Hin as (He & Hst & Hin). repeat split; auto.
  exists (observers_ app'). split; [| exact Hin ].
  eapply setApplicationState_tells; eassumption.
Qed.

Lemma added_observer_is_notified_witness :
  let app := mkApplication kApplicationStatePreloading [3]
               (WaitableEvent.mk WaitableEvent.MANUAL false) in
  exists es app' es2 app'',
    addObserver debug_build (Some 5) app = (es, Returned (tt, app')) /\
    application_state_ app' <> kApplicationStateStarted /\
    setApplicationState debug_build kApplicationStateStarted app'
      = (es2, Returned (tt, app'')) /\
    observers_ app' = [3; 5] /\
    notified 5 (onStateChange kApplicationStateStarted) es2.
Proof.
  cbv zeta. do 4 eexists. split; [ reflexivity | ].
  assert (H : kApplicationStatePreloading <> kApplicationStateStarted)
    by discriminate.
  split; [ exact H | ]. split; [ reflexivity | ]. split; [ reflexivity | ].
  exact (proj2 (proj2 (proj2
           (added_observer_is_notified debug_build 5
              (mkApplication kApplicationStatePreloading [3]
                 (WaitableEvent.mk WaitableEvent.MANUAL false))
              (s := kApplicationStateStarted) eq_refl H eq_refl)))).
Defined.



(** X11: after a suspend() that returned, teardown() passes the audit in
    every build: it returns with the application in Stopped, having told
    the observers onStateChange(Stopped) and no focus change, and the
    destructor's DCHECK then holds. *)
Theorem teardown_after_suspend build app es app' :
  suspend build app = (es, Returned (tt, app')) ->
  exists es2 app'',
    teardown build app' = (es2, Returned (tt, app'')) /\
    application_state_ app'' = kApplicationStateStopped /\
    notifications es2
      = [Notify (observers_ app) (onStateChange kApplicationStateStopped)] /\
    Application_delete build app'' = ([], Returned (tt, app'')).
Proof.
  destruct app as [st obs [pol sig]]. cbn [observers_].
  cases_of build; destruct st; cbv; intros H; inversion H;
    (eexists; eexists; split; [ reflexivity | ]); repeat split.
Qed.

Lemma teardown_after_suspend_witness :
  let app := mkApplication kApplicationStateStarted [7]
               (WaitableEvent.mk WaitableEvent.MANUAL true) in
  exists es app' es2 app'',
    suspend debug_build app = (es, Returned (tt, app')) /\
    teardown debug_build app' = (es2, Returned (tt, app'')) /\
    application_state_ app'' = kApplicationStateStopped /\
    notifications es2
      = [Notify [7] (onStateChange kApplicationStateStopped)] /\
    Application_delete debug_build app'' = ([], Returned (tt, app'')).
Proof.
  cbv zeta. eexists. eexists.
  destruct (teardown_after_suspend debug_build
              (mkApplication kApplicationStateStarted [7]
                 (WaitableEvent.mk WaitableEvent.MANUAL true)) eq_refl)
    as (es2 & app'' & H).
  exists es2, app''. split; [ reflexivity | exact H ].
Defined.

End Notifications.
